(** * TritonModelInstance: signatures, warm-up data, instance sets and the
      backend thread

    A shallow embedding of [src/backend_model_instance.h]
    (namespace [triton::core]).  The header defines three pieces of code in
    full: the nested class [TritonModelInstance::Signature], the constructor
    of [TritonModelInstance::WarmupData], and the constructor of
    [SecondaryDevice].  They are translated line by line below.  The
    remaining members ([SetInstances], [Schedule], the backend thread) are
    only declared in the header; their models are marked as such. *)

From stdpp Require Import base numbers option list strings gmap.

Local Open Scope Z_scope.

(** ** Signature *)

Module Signature.

Section WithConfig.

(** [inference::ModelInstanceGroup] is a protobuf message declared in
    [model_config.pb.h], and [EquivalentInInstanceConfig] a helper declared
    in [model_config_utils.h].  Neither header is part of this
    translation unit, so both are taken as parameters: the class is
    verified for every configuration type and every equivalence test. *)
Context {ModelInstanceGroup : Type}.
Variable EquivalentInInstanceConfig :
  ModelInstanceGroup -> ModelInstanceGroup -> bool.

(** The three data members, in declaration order.  [device_id_] is an
    [int32_t]; it is only ever stored and compared, so it is kept as the
    integer it denotes. *)
Record t : Type := MkSignature {
  group_config_ : ModelInstanceGroup;
  device_id_ : Z;
  can_match_ : bool
}.

(** [Signature(group_config, device_id)
      : group_config_(group_config), device_id_(device_id),
        can_match_(true)] *)
Definition Signature (group_config : ModelInstanceGroup) (device_id : Z) : t :=
  {| group_config_ := group_config;
     device_id_ := device_id;
     can_match_ := true |}.

(** [operator==]: the four conjuncts of the [return] statement, in source
    order; [&&] on [bool] short-circuits like the C++ operator. *)
Definition operator_eq (lhs rhs : t) : bool :=
  can_match_ lhs && can_match_ rhs &&
  (device_id_ lhs =? device_id_ rhs) &&
  EquivalentInInstanceConfig (group_config_ lhs) (group_config_ rhs).

(** [operator!=]: the negation of [operator==] on the same operands. *)
Definition operator_ne (lhs rhs : t) : bool :=
  negb (operator_eq lhs rhs).

(** [EnableMatching() { can_match_ = true; }] as a state update of the
    receiver. *)
Definition EnableMatching (s : t) : t :=
  {| group_config_ := group_config_ s;
     device_id_ := device_id_ s;
     can_match_ := true |}.

(** [DisableMatching() { can_match_ = false; }] *)
Definition DisableMatching (s : t) : t :=
  {| group_config_ := group_config_ s;
     device_id_ := device_id_ s;
     can_match_ := false |}.

End WithConfig.

Arguments t : clear implicits.

End Signature.

(** ** SecondaryDevice *)

(** [struct SecondaryDevice { const std::string kind_; const int64_t id_; }]
    with its two-argument constructor. *)
Record SecondaryDevice : Type := MkSecondaryDevice {
  kind_ : string;
  id_ : Z
}.

#[global] Instance SecondaryDevice_eq_dec : EqDecision SecondaryDevice.
Proof. solve_decision. Defined.

(** ** A concrete instance-group configuration *)

Module ModelConfig.

(** Modelled from the spec: the device class of an instance group,
    "kind (CPU/accelerator/custom)"; the protobuf enumeration itself is
    declared in [model_config.pb.h], which is not part of the sources. *)
Inductive Kind : Type := KIND_CPU | KIND_ACCELERATOR | KIND_CUSTOM.

#[global] Instance Kind_eq_dec : EqDecision Kind.
Proof. solve_decision. Defined.

(** Modelled from the spec: the validated instance-group descriptor
    ("kind, explicit or implicit device id list, replica count,
    host-policy name, rate-limiter settings, profile name list,
    secondary-device list, passive flag"); the message
    [inference::ModelInstanceGroup] is generated from a protobuf schema
    that is not part of the sources. *)
Record ModelInstanceGroup : Type := MkGroup {
  kind : Kind;
  gpus : list Z;
  count : Z;
  host_policy : string;
  rate_limiter : list (string * Z);
  profile : list string;
  secondary_devices : list SecondaryDevice;
  passive : bool
}.

(** Modelled from the spec: [EquivalentInInstanceConfig] is declared in
    [model_config_utils.h], which is not part of the sources.  The spec
    asks for a field-by-field comparison that leaves the replica count
    out: "equivalence must ignore fields irrelevant to runtime behavior,
    such as a raw instance count, while comparing kind, profiles, host
    policy, and rate-limiter settings". *)
Definition EquivalentInInstanceConfig (lhs rhs : ModelInstanceGroup) : bool :=
  bool_decide (kind lhs = kind rhs) &&
  bool_decide (gpus lhs = gpus rhs) &&
  bool_decide (host_policy lhs = host_policy rhs) &&
  bool_decide (rate_limiter lhs = rate_limiter rhs) &&
  bool_decide (profile lhs = profile rhs) &&
  bool_decide (secondary_devices lhs = secondary_devices rhs) &&
  bool_decide (passive lhs = passive rhs).

(** Two declarations of the same accelerator group that differ only in
    the replica count, and a CPU group. *)
Definition gpu_group (n : Z) : ModelInstanceGroup :=
  {| kind := KIND_ACCELERATOR; gpus := [0; 0]; count := n;
     host_policy := "gpu_0"; rate_limiter := [("R1", 4)];
     profile := ["fp16"]; secondary_devices := [MkSecondaryDevice "dla" 1];
     passive := false |}.

Definition cpu_group : ModelInstanceGroup :=
  {| kind := KIND_CPU; gpus := []; count := 1;
     host_policy := "cpu"; rate_limiter := [];
     profile := []; secondary_devices := [];
     passive := false |}.

End ModelConfig.

(** ** WarmupData *)

Module WarmupData.

(** [size_t] on the 64-bit targets the server is built for. *)
Definition SIZE_MAX : N := (2 ^ 64 - 1)%N.

Section WithPayload.

(** [InferenceRequest] and [AllocatedMemory] are classes of other
    translation units; the constructor only default-initialises the
    members that hold them. *)
Context {InferenceRequest AllocatedMemory : Type}.

(** The six data members, in declaration order.  A [std::unique_ptr] is
    an [option] (empty when default-constructed), a [std::vector] a
    list. *)
Record warmup_data : Type := MkWarmupData {
  sample_name_ : string;
  count_ : N;
  requests_ : list InferenceRequest;
  zero_data_ : option AllocatedMemory;
  random_data_ : option AllocatedMemory;
  provided_data_ : list string
}.

(** [WarmupData(sample_name, count)
      : sample_name_(sample_name), count_(std::max(count, size_t{1}))]
    with an empty body; the other members are default-initialised. *)
Definition WarmupData (sample_name : string) (count : N) : warmup_data :=
  {| sample_name_ := sample_name;
     count_ := N.max count 1;
     requests_ := [];
     zero_data_ := None;
     random_data_ := None;
     provided_data_ := [] |}.

End WithPayload.

Arguments warmup_data : clear implicits.

End WarmupData.

(** ** Status *)

Module Status.

(** Modelled from the spec: the error taxonomy of the instance layer
    ("ConfigurationError", "ResourceError", "BackendExecutionError",
    "LifecycleError"); the class [Status] is declared in [status.h], which
    is not part of the sources. *)
Inductive Code : Type :=
| ConfigurationError
| ResourceError
| BackendExecutionError
| LifecycleError.

(** Modelled from the spec: a status result is success or a failure that
    carries its class and a message; [Status] itself is declared in
    [status.h]. *)
Inductive status : Type :=
| Success
| Failure (code : Code) (msg : string).

(** Modelled from the spec: the test a caller makes on a returned
    status. *)
Definition IsOk (st : status) : bool :=
  match st with
  | Success => true
  | Failure _ _ => false
  end.

End Status.

(** ** SetInstances *)

Module InstanceSet.

(** Modelled from the spec: an execution thread as the instance-set
    builder sees it: the device it is bound to, the instances registered
    on it by [AddModelInstance] (in registration order), and whether it is
    still running.  The class [TritonBackendThread] is only declared in
    the header. *)
Record ExecutionThread : Type := MkThread {
  thread_device_id : Z;
  thread_instances : list string;
  thread_running : bool
}.

(** Modelled from the spec: [StopBackendThread] followed by the join of
    the destructor, as seen from the builder: the thread no longer
    runs. *)
Definition StopAndJoin (th : ExecutionThread) : ExecutionThread :=
  {| thread_device_id := thread_device_id th;
     thread_instances := thread_instances th;
     thread_running := false |}.

(** Modelled from the spec: [AddModelInstance] registers one more
    instance at the back of the thread's instance deque. *)
Definition AddModelInstance (name : string) (th : ExecutionThread)
  : ExecutionThread :=
  {| thread_device_id := thread_device_id th;
     thread_instances := thread_instances th ++ [name];
     thread_running := thread_running th |}.

Section WithCollaborators.

Context {ModelInstanceGroup : Type}.
Variable EquivalentInInstanceConfig :
  ModelInstanceGroup -> ModelInstanceGroup -> bool.

(** Modelled from the spec: one expanded instance declaration, "one
    InstanceSignature per (device id x policy) combination", together with
    the passive flag and whether the group's policy "allows execution
    sharing across declared replicas".  [SetInstances] is only declared in
    the header. *)
Record Candidate : Type := MkCandidate {
  cand_name : string;
  cand_signature : Signature.t ModelInstanceGroup;
  cand_passive : bool;
  cand_shareable : bool
}.

(** The outcomes of the collaborators a call of [SetInstances] relies on
    are parameters: construction of the instance object ([CreateInstance]),
    creation and device binding of a new thread ([CreateBackendThread]),
    and [Initialize] followed by [WarmUp] on the thread
    ([InitAndWarmUpModelInstance]).  The three are declared in the header
    and defined elsewhere. *)
Variable CreateInstance : Candidate -> Status.status.
Variable CreateBackendThread : Candidate -> Status.status.
Variable InitAndWarmUpModelInstance : Candidate -> Status.status.

(** Modelled from the spec: the part of a [ModelInstance] the builder
    sets: name, signature, passive flag, and the handle of its execution
    thread (an index into the thread table; absent for a passive
    instance). *)
Record ModelInstance : Type := MkInstance {
  name_ : string;
  signature_ : Signature.t ModelInstanceGroup;
  passive_ : bool;
  triton_backend_thread_ : option nat
}.

(** Modelled from the spec: what a call of [SetInstances] has built so
    far: the instances and the table of execution threads. *)
Record Built : Type := MkBuilt {
  instances : list ModelInstance;
  threads : list ExecutionThread
}.

(** Modelled from the spec: nothing is built when the call starts. *)
Definition empty : Built := {| instances := []; threads := [] |}.

(** Modelled from the spec: "match signatures against each other using
    Equals": the thread of the first active instance built so far whose
    signature equals the candidate's. *)
Fixpoint matching_thread (sig : Signature.t ModelInstanceGroup)
    (built : list ModelInstance) : option nat :=
  match built with
  | [] => None
  | i :: rest =>
      if negb (passive_ i) &&
         Signature.operator_eq EquivalentInInstanceConfig (signature_ i) sig
      then triton_backend_thread_ i
      else matching_thread sig rest
  end.

(** The early return of a failure status to the caller, together with
    what is built so far. *)
Notation "'RETURN_IF_ERROR' st 'keeping' b 'before' k" :=
  (match st with
   | Status.Success => k
   | Status.Failure code msg => (Status.Failure code msg, b)
   end)
  (at level 10, st at level 9, b at level 9, k at level 200,
   only parsing).

(** Modelled from the spec: the work for one candidate.  Construction
    comes first.  A passive instance "never owns or shares an
    ExecutionThread".  For an active one whose policy allows sharing, a
    matched signature is consumed ("disable matching on the consumed
    signature so it cannot be reused") and the instance is attached to
    the existing thread; "unmatched signatures create a new
    ExecutionThread".  Then the instance is initialised and warmed up on
    its thread. *)
Definition add_instance (c : Candidate) (b : Built) : Status.status * Built :=
  RETURN_IF_ERROR (CreateInstance c) keeping b before
  if cand_passive c then
    (Status.Success,
     {| instances := instances b ++
          [MkInstance (cand_name c) (cand_signature c) true None];
        threads := threads b |})
  else
    match (if cand_shareable c
           then matching_thread (cand_signature c) (instances b)
           else None) with
    | Some th =>
        let b' :=
          {| instances := instances b ++
               [MkInstance (cand_name c)
                  (Signature.DisableMatching (cand_signature c))
                  false (Some th)];
             threads := alter (AddModelInstance (cand_name c)) th (threads b) |} in
        RETURN_IF_ERROR (InitAndWarmUpModelInstance c) keeping b' before
        (Status.Success, b')
    | None =>
        RETURN_IF_ERROR (CreateBackendThread c) keeping b before
        let b' :=
          {| instances := instances b ++
               [MkInstance (cand_name c) (cand_signature c)
                  false (Some (length (threads b)))];
             threads := threads b ++
               [MkThread (Signature.device_id_ (cand_signature c))
                  [cand_name c] true] |} in
        RETURN_IF_ERROR (InitAndWarmUpModelInstance c) keeping b' before
        (Status.Success, b')
    end.

(** Modelled from the spec: the loop of [SetInstances] over the
    candidates, in configuration order; the first failure stops it. *)
Fixpoint add_instances (cands : list Candidate) (b : Built)
  : Status.status * Built :=
  match cands with
  | [] => (Status.Success, b)
  | c :: rest =>
      match add_instance c b with
      | (Status.Success, b') => add_instances rest b'
      | (Status.Failure code msg, b') => (Status.Failure code msg, b')
      end
  end.

(** Modelled from the spec: "all successfully created thread/instance
    pairs created so far are torn down": the instances are destroyed and
    every thread is stopped and joined. *)
Definition TearDown (b : Built) : Built :=
  {| instances := [];
     threads := StopAndJoin <$> threads b |}.

(** Modelled from the spec: [SetInstances] over the expanded candidates:
    "Failure of any single instance's construction or initialization
    aborts the entire SetInstances call with the originating status --
    partial instance sets are not left running". *)
Definition SetInstances (cands : list Candidate) : Status.status * Built :=
  match add_instances cands empty with
  | (Status.Success, b) => (Status.Success, b)
  | (Status.Failure code msg, b) => (Status.Failure code msg, TearDown b)
  end.

(** Modelled from the spec: the threads of a built set that are "left
    running". *)
Definition running_threads (b : Built) : list ExecutionThread :=
  filter (fun th => thread_running th = true) (threads b).

(** Modelled from the spec: "failure of any single instance's
    construction or initialization": the construction of the candidate
    fails, or, for an active one, its initialization and warm-up. *)
Definition fails (c : Candidate) : Prop :=
  Status.IsOk (CreateInstance c) = false \/
  (cand_passive c = false /\
   Status.IsOk (InitAndWarmUpModelInstance c) = false).

End WithCollaborators.

Arguments Candidate : clear implicits.
Arguments ModelInstance : clear implicits.
Arguments Built : clear implicits.

End InstanceSet.

(** ** The backend thread *)

Module BackendThread.

Section WithRequests.

(** [InferenceRequest] is a class of another translation unit; it is a
    parameter. *)
Context {InferenceRequest : Type}.

(** The first argument of [Schedule] as the header declares it: the
    vector of requests whose ownership is handed over.  One vector is one
    unit of work. *)
Definition Batch : Type := list InferenceRequest.

(** Modelled from the spec: where the thread function [BackendThread]
    stands.  The thread has not entered the loop yet, or it is at a safe
    point "between dequeued units of work", or inside the backend
    execution call of one unit, or it has left the loop; [Joined] is the
    thread after the destructor's join.  [BackendThread] is only declared
    in the header. *)
Inductive Loop : Type :=
| NotStarted
| AtSafePoint
| Executing (instance : nat) (unit_of_work : Batch)
| Exited
| Joined.

(** Modelled from the spec: the state of a thread object.  The members
    [backend_thread_exit_] and [model_instances_] are those of the header;
    the per-instance queues of scheduled work, the round-robin position of
    the loop, and the log of backend execution calls (oldest first) follow
    the spec's description of the loop. *)
Record State : Type := MkState {
  loop : Loop;
  backend_thread_exit_ : bool;
  model_instances_ : list nat;
  cursor : nat;
  queues : gmap nat (list Batch);
  executed : list (nat * Batch)
}.

(** Modelled from the spec: the state machine's phases, "Created ->
    Running -> Stopping (exit flag set) -> Joined/Destroyed". *)
Inductive Phase : Type := Created | Running | Stopping | Destroyed.

(** Modelled from the spec: the phase a thread state is in. *)
Definition phase (st : State) : Phase :=
  match loop st with
  | NotStarted => Created
  | Joined => Destroyed
  | Exited => Stopping
  | AtSafePoint | Executing _ _ =>
      if backend_thread_exit_ st then Stopping else Running
  end.

(** Modelled from the spec: what can happen to a thread object: calls
    made by other threads
    ([AddModelInstance], [Schedule], [StopBackendThread], the [Join] of the
    destructor), and steps of the thread itself ([LoopStep]). *)
Inductive Event : Type :=
| AddModelInstance (instance : nat)
| Schedule (instance : nat) (requests : Batch)
| StopBackendThread
| LoopStep
| Join.

(** Modelled from the spec: a thread object right after construction
    ("Created"). *)
Definition created : State :=
  {| loop := NotStarted; backend_thread_exit_ := false;
     model_instances_ := []; cursor := 0; queues := ∅; executed := [] |}.

(** Modelled from the spec: [Schedule] is "non-blocking from the caller's
    perspective (enqueue-and-return)": the unit goes to the back of the
    instance's queue. *)
Definition enqueue (i : nat) (b : Batch) (st : State) : State :=
  {| loop := loop st;
     backend_thread_exit_ := backend_thread_exit_ st;
     model_instances_ := model_instances_ st;
     cursor := cursor st;
     queues := <[i := (queues st !!! i) ++ [b]]> (queues st);
     executed := executed st |}.

(** Modelled from the spec: one pass through a safe point.  The exit
    flag is observed first.  Otherwise the loop looks at the instance
    under the cursor: it "performs queued execution requests to
    completion before moving to the next", so a unit is taken from the
    front of that instance's queue and handed to the backend execution
    call, and an empty queue moves the cursor to the next instance in
    registration order, round-robin. *)
Definition safe_point (st : State) : State :=
  if backend_thread_exit_ st then
    {| loop := Exited;
       backend_thread_exit_ := backend_thread_exit_ st;
       model_instances_ := model_instances_ st;
       cursor := cursor st;
       queues := queues st;
       executed := executed st |}
  else
    match model_instances_ st !! cursor st with
    | None =>
        {| loop := AtSafePoint;
           backend_thread_exit_ := backend_thread_exit_ st;
           model_instances_ := model_instances_ st;
           cursor := 0;
           queues := queues st;
           executed := executed st |}
    | Some i =>
        match queues st !!! i with
        | [] =>
            {| loop := AtSafePoint;
               backend_thread_exit_ := backend_thread_exit_ st;
               model_instances_ := model_instances_ st;
               cursor := S (cursor st);
               queues := queues st;
               executed := executed st |}
        | b :: rest =>
            {| loop := Executing i b;
               backend_thread_exit_ := backend_thread_exit_ st;
               model_instances_ := model_instances_ st;
               cursor := cursor st;
               queues := <[i := rest]> (queues st);
               executed := executed st ++ [(i, b)] |}
        end
    end.

(** Modelled from the spec: the thread moves to another place of its
    function; nothing else changes. *)
Definition set_loop (l : Loop) (st : State) : State :=
  {| loop := l;
     backend_thread_exit_ := backend_thread_exit_ st;
     model_instances_ := model_instances_ st;
     cursor := cursor st;
     queues := queues st;
     executed := executed st |}.

(** Modelled from the spec: the effect of one event.  [CreateBackendThread]
    starts the thread, so its first step enters the loop.  A [Join] while
    the thread has not left the loop leaves the state as it is: the caller
    is still waiting. *)
Definition step (st : State) (ev : Event) : State :=
  match ev with
  | AddModelInstance i =>
      {| loop := loop st;
         backend_thread_exit_ := backend_thread_exit_ st;
         model_instances_ := model_instances_ st ++ [i];
         cursor := cursor st;
         queues := queues st;
         executed := executed st |}
  | Schedule i b => enqueue i b st
  | StopBackendThread =>
      {| loop := loop st;
         backend_thread_exit_ := true;
         model_instances_ := model_instances_ st;
         cursor := cursor st;
         queues := queues st;
         executed := executed st |}
  | LoopStep =>
      match loop st with
      | NotStarted => set_loop AtSafePoint st
      | AtSafePoint => safe_point st
      | Executing _ _ => set_loop AtSafePoint st
      | Exited | Joined => st
      end
  | Join =>
      match loop st with
      | Exited => set_loop Joined st
      | _ => st
      end
  end.

(** Modelled from the spec: the events of an execution, applied in the
    order they happen. *)
Definition run (evs : list Event) (st : State) : State :=
  foldl step st evs.

(** Modelled from the spec: the destructor, "sets the exit flag; the
    loop observes it at well-defined safe points (between dequeued units
    of work) and exits; destructor joins the thread".  The thread needs at
    most two steps of its own to leave the loop: it finishes the unit it
    is in (or enters the loop), and it observes the flag. *)
Definition destroy (st : State) : State :=
  run [StopBackendThread; LoopStep; LoopStep; Join] st.

(** Modelled from the spec: the units [Schedule] was called with for one
    instance, in call order. *)
Fixpoint scheduled (i : nat) (evs : list Event) : list Batch :=
  match evs with
  | [] => []
  | Schedule j b :: rest =>
      if decide (j = i) then b :: scheduled i rest else scheduled i rest
  | _ :: rest => scheduled i rest
  end.

(** Modelled from the spec: the units the backend execution call has
    observed for one instance, in call order. *)
Fixpoint observed (i : nat) (log : list (nat * Batch)) : list Batch :=
  match log with
  | [] => []
  | (j, b) :: rest =>
      if decide (j = i) then b :: observed i rest else observed i rest
  end.

(** Modelled from the spec: the units still waiting in the queue of one
    instance. *)
Definition pending (i : nat) (st : State) : list Batch := queues st !!! i.

End WithRequests.

Arguments State : clear implicits.
Arguments Event : clear implicits.
Arguments Loop : clear implicits.

End BackendThread.

(** ** TritonModelInstance: the members and the inline accessors *)

Module TritonModelInstance.

Section WithCollaborators.

(** The classes and enumerations of other headers that the members refer
    to; the accessors only store and return their values, so they are
    parameters.  [Pointer] stands for the raw pointers of the class
    ([TritonModel*], [void*]). *)
Context {ModelInstanceGroup TritonBackendThread InferenceRequest
         AllocatedMemory Pointer TRITONSERVER_InstanceGroupKind
         HostPolicyCmdlineConfig TritonServerMessage
         MetricModelReporter : Type}.

(** The data members of [TritonModelInstance], in declaration order.  A
    [std::shared_ptr] is an [option] (empty when it holds nothing), a
    [std::vector] a list. *)
Record instance : Type := MkModelInstance {
  triton_backend_thread_ : option TritonBackendThread;
  warmup_samples_ :
    list (WarmupData.warmup_data InferenceRequest AllocatedMemory);
  model_ : Pointer;
  name_ : string;
  signature_ : Signature.t ModelInstanceGroup;
  kind_ : TRITONSERVER_InstanceGroupKind;
  device_id_ : Z;
  host_policy_ : HostPolicyCmdlineConfig;
  host_policy_message_ : TritonServerMessage;
  profile_names_ : list string;
  passive_ : bool;
  secondary_devices_ : list SecondaryDevice;
  reporter_ : option MetricModelReporter;
  state_ : Pointer
}.

(** [const std::string& Name() const { return name_; }] *)
Definition Name (i : instance) : string := name_ i.

(** [Signature& GetSignature() { return signature_; }]: the value read
    through the returned reference. *)
Definition GetSignature (i : instance) : Signature.t ModelInstanceGroup :=
  signature_ i.

(** [Kind() const { return kind_; }] *)
Definition Kind (i : instance) : TRITONSERVER_InstanceGroupKind := kind_ i.

(** [int32_t DeviceId() const { return device_id_; }] *)
Definition DeviceId (i : instance) : Z := device_id_ i.

(** [HostPolicy() const { return host_policy_; }] *)
Definition HostPolicy (i : instance) : HostPolicyCmdlineConfig := host_policy_ i.

(** [HostPolicyMessage() const { return host_policy_message_; }] *)
Definition HostPolicyMessage (i : instance) : TritonServerMessage :=
  host_policy_message_ i.

(** [bool IsPassive() const { return passive_; }] *)
Definition IsPassive (i : instance) : bool := passive_ i.

(** [Profiles() const { return profile_names_; }] *)
Definition Profiles (i : instance) : list string := profile_names_ i.

(** [SecondaryDevices() const { return secondary_devices_; }] *)
Definition SecondaryDevices (i : instance) : list SecondaryDevice :=
  secondary_devices_ i.

(** [TritonModel* Model() const { return model_; }] *)
Definition Model (i : instance) : Pointer := model_ i.

(** [void* State() { return state_; }] *)
Definition State (i : instance) : Pointer := state_ i.

(** [void SetState(void* state) { state_ = state; }] as a state update of
    the receiver. *)
Definition SetState (state : Pointer) (i : instance) : instance :=
  {| triton_backend_thread_ := triton_backend_thread_ i;
     warmup_samples_ := warmup_samples_ i;
     model_ := model_ i;
     name_ := name_ i;
     signature_ := signature_ i;
     kind_ := kind_ i;
     device_id_ := device_id_ i;
     host_policy_ := host_policy_ i;
     host_policy_message_ := host_policy_message_ i;
     profile_names_ := profile_names_ i;
     passive_ := passive_ i;
     secondary_devices_ := secondary_devices_ i;
     reporter_ := reporter_ i;
     state_ := state |}.

(** [MetricReporter() const { return reporter_.get(); }]: the raw pointer
    of the shared pointer, null when it holds nothing. *)
Definition MetricReporter (i : instance) : option MetricModelReporter := reporter_ i.

(** [GetSignature] returns a reference to the member, so a member
    function [f] of [Signature] called on the result, as in
    [instance.GetSignature().DisableMatching()], updates [signature_] in
    place. *)
Definition on_signature
    (f : Signature.t ModelInstanceGroup -> Signature.t ModelInstanceGroup)
    (i : instance) : instance :=
  {| triton_backend_thread_ := triton_backend_thread_ i;
     warmup_samples_ := warmup_samples_ i;
     model_ := model_ i;
     name_ := name_ i;
     signature_ := f (GetSignature i);
     kind_ := kind_ i;
     device_id_ := device_id_ i;
     host_policy_ := host_policy_ i;
     host_policy_message_ := host_policy_message_ i;
     profile_names_ := profile_names_ i;
     passive_ := passive_ i;
     secondary_devices_ := secondary_devices_ i;
     reporter_ := reporter_ i;
     state_ := state_ i |}.

(** Everything a caller can read from an instance through the accessors
    other than [State] and [GetSignature] (and the two members without an
    accessor). *)
Definition unrelated_to_state_and_signature (i j : instance) : Prop :=
  Name j = Name i /\ Kind j = Kind i /\ DeviceId j = DeviceId i /\
  HostPolicy j = HostPolicy i /\
  HostPolicyMessage j = HostPolicyMessage i /\
  IsPassive j = IsPassive i /\ Profiles j = Profiles i /\
  SecondaryDevices j = SecondaryDevices i /\ Model j = Model i /\
  MetricReporter j = MetricReporter i /\
  triton_backend_thread_ j = triton_backend_thread_ i /\
  warmup_samples_ j = warmup_samples_ i.

End WithCollaborators.

Arguments instance : clear implicits.

End TritonModelInstance.

(** ** Sequences of calls on a signature *)

Module SignatureCalls.

Section WithConfig.

Context {ModelInstanceGroup : Type}.

(** The two mutating members of [Signature], as calls a client makes one
    after the other on the same object. *)
Inductive Call : Type := CallEnableMatching | CallDisableMatching.

Definition call (c : Call) (s : Signature.t ModelInstanceGroup)
  : Signature.t ModelInstanceGroup :=
  match c with
  | CallEnableMatching => Signature.EnableMatching s
  | CallDisableMatching => Signature.DisableMatching s
  end.

Definition calls (cs : list Call) (s : Signature.t ModelInstanceGroup)
  : Signature.t ModelInstanceGroup :=
  foldl (fun s' c => call c s') s cs.

End WithConfig.

End SignatureCalls.

(** ** Sample instance sets *)

Module Scenario.

Import ModelConfig InstanceSet.

(** A replica of the accelerator group on device 0, declared with replica
    count [n], active, with a policy that allows sharing. *)
Definition replica (name : string) (n : Z) : Candidate ModelInstanceGroup :=
  MkCandidate name (Signature.Signature (gpu_group n) 0) false true.

(** The instance group with device ids [0, 0] and a shareable policy. *)
Definition two_replicas : list (Candidate ModelInstanceGroup) :=
  [replica "m_0_0" 2; replica "m_0_1" 2].

Definition three_replicas : list (Candidate ModelInstanceGroup) :=
  two_replicas ++ [replica "m_0_2" 2].

(** A collaborator that succeeds for every candidate, and one whose
    warm-up fails for the candidate of a given name. *)
Definition always_ok (c : Candidate ModelInstanceGroup) : Status.status :=
  Status.Success.

Definition warmup_fails_for (name : string)
    (c : Candidate ModelInstanceGroup) : Status.status :=
  if bool_decide (cand_name c = name)
  then Status.Failure Status.LifecycleError "warm-up failed"
  else Status.Success.

End Scenario.

(** * Properties *)

(** ** Signature: equality and the matching toggle *)

Module SignatureSpec.

Import Signature.

Section WithConfig.

Context {ModelInstanceGroup : Type}.
Variable Equivalent : ModelInstanceGroup -> ModelInstanceGroup -> bool.

Implicit Types s t : Signature.t ModelInstanceGroup.
Implicit Types g : ModelInstanceGroup.
Implicit Types d : Z.

Local Notation "s == t" := (operator_eq Equivalent s t)
  (at level 70, no associativity).
Local Notation "s != t" := (operator_ne Equivalent s t)
  (at level 70, no associativity).

Lemma operator_eq_unfold s t :
  (s == t) =
  can_match_ s && can_match_ t && (device_id_ s =? device_id_ t) &&
  Equivalent (group_config_ s) (group_config_ t).
Proof. reflexivity. Qed.

Lemma operator_eq_disabled_l s t : can_match_ s = false -> (s == t) = false.
Proof. intros Hs. rewrite operator_eq_unfold, Hs. reflexivity. Qed.

Lemma operator_eq_disabled_r s t : can_match_ t = false -> (s == t) = false.
Proof.
  intros Ht. rewrite operator_eq_unfold, Ht.
  destruct (can_match_ s); reflexivity.
Qed.

Lemma EnableMatching_DisableMatching s :
  EnableMatching (DisableMatching s) = EnableMatching s.
Proof. reflexivity. Qed.

Lemma EnableMatching_matchable s :
  can_match_ s = true -> EnableMatching s = s.
Proof. destruct s as [g d m]; simpl; intros ->; reflexivity. Qed.

(** C1: [operator==] returns true exactly when both signatures are
    matchable, their device ids are equal, and their instance-group
    configurations are equivalent under [EquivalentInInstanceConfig]. *)
Theorem operator_eq_iff s t :
  (s == t) = true <->
  can_match_ s = true /\ can_match_ t = true /\
  device_id_ s = device_id_ t /\
  Equivalent (group_config_ s) (group_config_ t) = true.
Proof.
  rewrite operator_eq_unfold, !andb_true_iff, Z.eqb_eq. tauto.
Qed.

(** C2: once [DisableMatching] has been called on a signature, it
    compares unequal to every signature, in both argument orders: to any
    other one, to itself, and to a freshly constructed signature with the
    same device id and any (in particular an equivalent) configuration. *)
Theorem disabled_signature_never_equal s t :
  (DisableMatching s == t) = false /\
  (t == DisableMatching s) = false /\
  (DisableMatching s == DisableMatching s) = false /\
  (forall g,
     (DisableMatching s == Signature g (device_id_ s)) = false /\
     (Signature g (device_id_ s) == DisableMatching s) = false).
Proof.
  repeat split;
    solve [ apply operator_eq_disabled_l; reflexivity
          | apply operator_eq_disabled_r; reflexivity ].
Qed.

(** C7: [EnableMatching] and [DisableMatching] write the matchable flag
    and nothing else: the device id and the instance-group configuration
    of the signature are the ones it had before the call. *)
Theorem matching_toggle_frame s :
  (device_id_ (EnableMatching s) = device_id_ s /\
   group_config_ (EnableMatching s) = group_config_ s /\
   can_match_ (EnableMatching s) = true) /\
  (device_id_ (DisableMatching s) = device_id_ s /\
   group_config_ (DisableMatching s) = group_config_ s /\
   can_match_ (DisableMatching s) = false).
Proof. repeat split. Qed.

(** C8: a freshly constructed signature is matchable, so two fresh
    signatures with the same device id and equivalent configurations
    compare equal with no call of [EnableMatching] in between. *)
Theorem fresh_signature_matchable g1 g2 d :
  Equivalent g1 g2 = true ->
  can_match_ (Signature g1 d) = true /\
  can_match_ (Signature g2 d) = true /\
  (Signature g1 d == Signature g2 d) = true.
Proof.
  intros Heq. repeat split.
  rewrite operator_eq_unfold. simpl. rewrite Z.eqb_refl, Heq. reflexivity.
Qed.

(** C9: [operator!=] is the negation of [operator==]: it returns true
    exactly when [operator==] returns false. *)
Theorem operator_ne_iff s t :
  (s != t) = negb (s == t) /\
  ((s != t) = true <-> (s == t) = false).
Proof.
  split; [reflexivity |].
  unfold operator_ne. apply negb_true_iff.
Qed.

(** C10 (as amended): for a signature that is matchable before the
    calls, [DisableMatching] followed by [EnableMatching] gives back the
    very same signature, and so the same result of [operator==] against
    every other signature, on either side. *)
Theorem disable_enable_roundtrip s :
  can_match_ s = true ->
  EnableMatching (DisableMatching s) = s /\
  (forall t,
     (EnableMatching (DisableMatching s) == t) = (s == t) /\
     (t == EnableMatching (DisableMatching s)) = (t == s)).
Proof.
  intros Hs.
  assert (Hid : EnableMatching (DisableMatching s) = s)
    by (rewrite EnableMatching_DisableMatching;
        apply EnableMatching_matchable, Hs).
  rewrite Hid. auto.
Qed.

End WithConfig.

(** Witnesses and the counterexample, at the concrete configuration
    model. *)

Import ModelConfig.

Lemma fresh_signature_matchable_witness :
  can_match_ (Signature (gpu_group 1) 0) = true /\
  can_match_ (Signature (gpu_group 2) 0) = true /\
  operator_eq EquivalentInInstanceConfig
    (Signature (gpu_group 1) 0) (Signature (gpu_group 2) 0) = true.
Proof.
  apply (fresh_signature_matchable EquivalentInInstanceConfig
           (gpu_group 1) (gpu_group 2) 0).
  vm_compute. reflexivity.
Defined.

Lemma disable_enable_roundtrip_witness :
  EnableMatching (DisableMatching (Signature (gpu_group 1) 0))
    = Signature (gpu_group 1) 0 /\
  (forall t,
     operator_eq EquivalentInInstanceConfig
       (EnableMatching (DisableMatching (Signature (gpu_group 1) 0))) t
     = operator_eq EquivalentInInstanceConfig (Signature (gpu_group 1) 0) t /\
     operator_eq EquivalentInInstanceConfig
       t (EnableMatching (DisableMatching (Signature (gpu_group 1) 0)))
     = operator_eq EquivalentInInstanceConfig t (Signature (gpu_group 1) 0)).
Proof.
  apply (disable_enable_roundtrip EquivalentInInstanceConfig
           (Signature (gpu_group 1) 0)).
  reflexivity.
Defined.

(** C10 as stated fails on a signature that is already disabled before
    the two calls (a signature consumed by an earlier match): the calls
    leave it matchable, so it differs from its prior state and now equals
    a fresh equivalent signature it did not equal before. *)
Lemma disable_enable_not_identity :
  let s := DisableMatching (Signature (gpu_group 1) 0) in
  let t := Signature (gpu_group 2) 0 in
  EnableMatching (DisableMatching s) <> s /\
  operator_eq EquivalentInInstanceConfig s t = false /\
  operator_eq EquivalentInInstanceConfig
    (EnableMatching (DisableMatching s)) t = true.
Proof.
  cbv zeta. split; [| split].
  - intros Heq. apply (f_equal can_match_) in Heq. discriminate Heq.
  - vm_compute. reflexivity.
  - vm_compute. reflexivity.
Qed.

End SignatureSpec.

(** ** WarmupData: the floor on the repeat count *)

Module WarmupDataSpec.

Import WarmupData.

Section WithPayload.

Context {InferenceRequest AllocatedMemory : Type}.

Local Abbreviation WarmupData :=
  (@WarmupData.WarmupData InferenceRequest AllocatedMemory).

Lemma count_at_least_one name c : (1 <= count_ (WarmupData name c))%N.
Proof. simpl. lia. Qed.

Lemma count_unchanged_when_positive name c :
  (1 <= c)%N -> count_ (WarmupData name c) = c.
Proof. simpl. lia. Qed.

Lemma count_fits_size_t name c :
  (c <= SIZE_MAX)%N -> (count_ (WarmupData name c) <= SIZE_MAX)%N.
Proof. unfold SIZE_MAX. simpl. lia. Qed.

(** C3: the constructed [WarmupData] has repeat count [max(c, 1)] for
    every requested count [c]; a count of 0 builds exactly the object a
    count of 1 builds, so whatever consumes the sample (the warm-up run)
    cannot tell the two apart. *)
Theorem warmup_count_floor name c :
  count_ (WarmupData name c) = N.max c 1 /\
  WarmupData name 0 = WarmupData name 1 /\
  (forall (Outcome : Type)
          (WarmUp : warmup_data InferenceRequest AllocatedMemory -> Outcome),
     WarmUp (WarmupData name 0) = WarmUp (WarmupData name 1)).
Proof. repeat split. Qed.

End WithPayload.

End WarmupDataSpec.

(** ** The backend thread: order of execution, stop and join *)

Module BackendThreadSpec.

Import BackendThread.

Section WithRequests.

Context {InferenceRequest : Type}.

Local Abbreviation State := (BackendThread.State InferenceRequest).
Local Abbreviation Event := (BackendThread.Event InferenceRequest).
Local Abbreviation Batch := (@BackendThread.Batch InferenceRequest).

Implicit Types st : State.
Implicit Types ev : Event.
Implicit Types evs : list Event.
Implicit Types i j : nat.
Implicit Types b : Batch.

(** *** Running a list of events *)

Lemma run_nil st : run [] st = st.
Proof. reflexivity. Qed.

Lemma run_cons ev evs st : run (ev :: evs) st = run evs (step st ev).
Proof. reflexivity. Qed.

Lemma run_app evs1 evs2 st :
  run (evs1 ++ evs2) st = run evs2 (run evs1 st).
Proof. unfold run. apply foldl_app. Qed.

(** *** The execution log and the queues, per instance *)

Lemma observed_app i (log1 log2 : list (nat * Batch)) :
  observed i (log1 ++ log2) = observed i log1 ++ observed i log2.
Proof.
  induction log1 as [| [j b] log1 IH]; simpl; [reflexivity |].
  destruct (decide (j = i)); simpl; rewrite IH; reflexivity.
Qed.

Lemma scheduled_app i evs1 evs2 :
  scheduled i (evs1 ++ evs2) = scheduled i evs1 ++ scheduled i evs2.
Proof.
  induction evs1 as [| ev evs1 IH]; simpl; [reflexivity |].
  destruct ev; try exact IH.
  destruct (decide (instance = i)); simpl; rewrite IH; reflexivity.
Qed.

Lemma pending_enqueue i j b st :
  pending i (enqueue j b st) =
  if decide (j = i) then pending i st ++ [b] else pending i st.
Proof.
  unfold pending, enqueue; simpl. destruct (decide (j = i)) as [-> | Hne].
  - apply lookup_total_insert_eq.
  - apply lookup_total_insert_ne, Hne.
Qed.

(** One step keeps, for every instance, the units seen by the backend
    followed by the units still queued equal to what they were, extended
    by the unit the step schedules (if it is a [Schedule]). *)
Lemma step_fifo st ev i :
  observed i (executed (step st ev)) ++ pending i (step st ev) =
  observed i (executed st) ++ pending i st ++ scheduled i [ev].
Proof.
  destruct ev as [j | j b | | |]; simpl.
  - rewrite app_nil_r. reflexivity.
  - rewrite pending_enqueue.
    destruct (decide (j = i)); simpl; rewrite ?app_nil_r; reflexivity.
  - rewrite app_nil_r. reflexivity.
  - rewrite app_nil_r.
    destruct (loop st) eqn:Hloop; simpl; try reflexivity.
    unfold safe_point.
    destruct (backend_thread_exit_ st); [reflexivity |].
    destruct (model_instances_ st !! cursor st) as [j |]; [| reflexivity].
    destruct (queues st !!! j) as [| b rest] eqn:Hq; [reflexivity |].
    unfold pending; simpl. rewrite observed_app; simpl.
    destruct (decide (j = i)) as [-> | Hne].
    + rewrite lookup_total_insert_eq, Hq, <- app_assoc. reflexivity.
    + rewrite lookup_total_insert_ne by exact Hne.
      rewrite app_nil_r. reflexivity.
  - rewrite app_nil_r. destruct (loop st); reflexivity.
Qed.

Lemma run_fifo evs st i :
  observed i (executed (run evs st)) ++ pending i (run evs st) =
  observed i (executed st) ++ pending i st ++ scheduled i evs.
Proof.
  revert st. induction evs as [| ev evs IH]; intros st.
  - simpl. rewrite app_nil_r. reflexivity.
  - rewrite run_cons, IH.
    change (ev :: evs) with ([ev] ++ evs).
    rewrite scheduled_app, !app_assoc. f_equal.
    rewrite <- app_assoc. apply step_fifo.
Qed.

(** *** Calls of [Schedule] leave the loop alone *)

Lemma run_schedules_control i (bs : list Batch) st :
  loop (run (Schedule i <$> bs) st) = loop st /\
  backend_thread_exit_ (run (Schedule i <$> bs) st) = backend_thread_exit_ st /\
  model_instances_ (run (Schedule i <$> bs) st) = model_instances_ st /\
  cursor (run (Schedule i <$> bs) st) = cursor st /\
  executed (run (Schedule i <$> bs) st) = executed st.
Proof.
  revert st. induction bs as [| b bs IH]; intros st; [repeat split |].
  rewrite fmap_cons, run_cons.
  destruct (IH (step st (Schedule i b))) as (-> & -> & -> & -> & ->).
  repeat split.
Qed.

Lemma scheduled_schedules i (bs : list Batch) :
  scheduled i (Schedule i <$> bs) = bs.
Proof.
  induction bs as [| b bs IH]; [reflexivity |].
  rewrite fmap_cons. cbn [scheduled].
  destruct (decide (i = i)); [| congruence]. rewrite IH. reflexivity.
Qed.

Lemma run_schedules_pending i (bs : list Batch) st :
  pending i (run (Schedule i <$> bs) st) = pending i st ++ bs.
Proof.
  pose proof (run_fifo (Schedule i <$> bs) st i) as Hfifo.
  destruct (run_schedules_control i bs st) as (_ & _ & _ & _ & Hexec).
  rewrite Hexec, scheduled_schedules in Hfifo.
  apply app_inv_head in Hfifo. exact Hfifo.
Qed.

(** *** The loop empties the queue of the instance under its cursor *)

Lemma loop_takes_front i b (rest : list Batch) st :
  loop st = AtSafePoint ->
  backend_thread_exit_ st = false ->
  model_instances_ st !! cursor st = Some i ->
  pending i st = b :: rest ->
  let st' := run [LoopStep; LoopStep] st in
  loop st' = AtSafePoint /\
  backend_thread_exit_ st' = false /\
  model_instances_ st' !! cursor st' = Some i /\
  pending i st' = rest /\
  executed st' = executed st ++ [(i, b)].
Proof.
  unfold pending. intros Hloop Hflag Hcur Hq. simpl.
  rewrite Hloop. unfold safe_point. rewrite Hflag, Hcur, Hq. simpl.
  rewrite lookup_total_insert_eq. repeat split; assumption.
Qed.

Lemma loop_drains i (q : list Batch) st :
  loop st = AtSafePoint ->
  backend_thread_exit_ st = false ->
  model_instances_ st !! cursor st = Some i ->
  pending i st = q ->
  let st' := run (replicate (2 * length q) LoopStep) st in
  loop st' = AtSafePoint /\
  pending i st' = [] /\
  executed st' = executed st ++ (pair i <$> q).
Proof.
  revert st. induction q as [| b rest IH]; intros st Hloop Hflag Hcur Hq.
  - simpl. rewrite app_nil_r. repeat split; assumption.
  - destruct (loop_takes_front i b rest st Hloop Hflag Hcur Hq)
      as (Hloop' & Hflag' & Hcur' & Hq' & Hexec').
    replace (2 * length (b :: rest))%nat with (S (S (2 * length rest)))
      by (simpl; lia).
    cbv zeta. change (replicate (S (S (2 * length rest))) LoopStep)
      with ([LoopStep; LoopStep] ++ replicate (2 * length rest) (@LoopStep InferenceRequest)).
    rewrite run_app.
    destruct (IH _ Hloop' Hflag' Hcur' Hq') as (H1 & H2 & H3).
    repeat split; [exact H1 | exact H2 |].
    rewrite H3, Hexec', <- app_assoc. reflexivity.
Qed.

(** C5: for every instance, the units the backend execution call has
    observed, followed by the units still queued, are at every moment the
    units [Schedule] was called with for that instance, in call order, so
    the backend observes them first-in first-out; and when a thread serves
    an instance that was handed the units [bs], the execution calls it
    makes are exactly [bs], one call per unit and in that order, with the
    requests of each unit in the order of its vector. *)
Theorem schedule_fifo_per_instance i :
  (forall evs,
     observed i (executed (run evs created)) ++ pending i (run evs created)
     = scheduled i evs) /\
  (forall evs,
     concat (observed i (executed (run evs created))) ++
     concat (pending i (run evs created))
     = concat (scheduled i evs)) /\
  (forall bs : list Batch,
     executed
       (run (AddModelInstance i :: (Schedule i <$> bs) ++
             replicate (1 + 2 * length bs) LoopStep) created)
     = pair i <$> bs).
Proof.
  assert (Hfifo : forall evs,
     observed i (executed (run evs created)) ++ pending i (run evs created)
     = scheduled i evs).
  { intros evs. rewrite run_fifo. unfold pending; simpl.
    rewrite lookup_total_empty. reflexivity. }
  split; [exact Hfifo | split].
  - intros evs. rewrite <- Hfifo, concat_app. reflexivity.
  - intros bs. rewrite run_cons, run_app.
    set (st1 := step created (AddModelInstance i)).
    destruct (run_schedules_control i bs st1) as (Hl & Hf & Hm & Hc & He).
    pose proof (run_schedules_pending i bs st1) as Hp.
    set (st2 := run (Schedule i <$> bs) st1) in *.
    change (replicate (1 + 2 * length bs) LoopStep)
      with (@LoopStep InferenceRequest :: replicate (2 * length bs) LoopStep).
    rewrite run_cons.
    assert (Hstep : step st2 LoopStep = set_loop AtSafePoint st2)
      by (simpl; rewrite Hl; reflexivity).
    rewrite Hstep.
    destruct (loop_drains i bs (set_loop AtSafePoint st2)) as (_ & _ & Hexec).
    + reflexivity.
    + simpl. rewrite Hf. reflexivity.
    + simpl. rewrite Hm, Hc. reflexivity.
    + unfold pending in *. simpl. rewrite Hp. unfold st1; simpl.
      rewrite lookup_total_empty. reflexivity.
    + rewrite Hexec. simpl. rewrite He. reflexivity.
Qed.

(** *** After the exit flag is set *)

Lemma run_preserves (P : State -> Prop) :
  (forall st ev, P st -> P (step st ev)) ->
  forall evs st, P st -> P (run evs st).
Proof.
  intros Hstep evs. induction evs as [| ev evs IH]; intros st HP.
  - exact HP.
  - rewrite run_cons. apply IH, Hstep, HP.
Qed.

Lemma step_keeps_exit_flag st ev :
  backend_thread_exit_ st = true -> backend_thread_exit_ (step st ev) = true.
Proof.
  intros Hflag. destruct ev; simpl; try assumption; try reflexivity.
  - destruct (loop st); simpl; try assumption.
    unfold safe_point. rewrite Hflag. reflexivity.
  - destruct (loop st); simpl; assumption.
Qed.

(** With the flag set the loop starts no execution call. *)
Lemma step_stopping_executed st ev :
  backend_thread_exit_ st = true -> executed (step st ev) = executed st.
Proof.
  intros Hflag. destruct ev; simpl; try reflexivity.
  - destruct (loop st); simpl; try reflexivity.
    unfold safe_point. rewrite Hflag. reflexivity.
  - destruct (loop st); reflexivity.
Qed.

Lemma run_stopping_executed evs st :
  backend_thread_exit_ st = true -> executed (run evs st) = executed st.
Proof.
  intros Hflag.
  apply (run_preserves
           (fun st' => backend_thread_exit_ st' = true /\
                       executed st' = executed st)); [| by split].
  intros st' ev [Hflag' Hexec]. split.
  - apply step_keeps_exit_flag, Hflag'.
  - rewrite step_stopping_executed by exact Hflag'. exact Hexec.
Qed.

(** With the flag set, a thread that is not inside a unit stays so, and a
    thread that has left the loop never re-enters it. *)
Lemma step_stopping_between_units st ev :
  backend_thread_exit_ st = true /\
  (loop st = AtSafePoint \/ loop st = Exited \/ loop st = Joined) ->
  backend_thread_exit_ (step st ev) = true /\
  (loop (step st ev) = AtSafePoint \/ loop (step st ev) = Exited \/
   loop (step st ev) = Joined).
Proof.
  intros [Hflag Hloop]. split; [apply step_keeps_exit_flag, Hflag |].
  destruct ev; simpl; try exact Hloop.
  - destruct Hloop as [H | [H | H]]; rewrite H; simpl; rewrite ?H; auto.
    unfold safe_point. rewrite Hflag. simpl. auto.
  - destruct Hloop as [H | [H | H]]; rewrite H; simpl; rewrite ?H; auto.
Qed.

Lemma step_left_loop st ev :
  loop st = Exited \/ loop st = Joined ->
  loop (step st ev) = Exited \/ loop (step st ev) = Joined.
Proof.
  intros Hloop. destruct ev; simpl; try exact Hloop.
  - destruct Hloop as [H | H]; rewrite H; simpl; rewrite ?H; auto.
  - destruct Hloop as [H | H]; rewrite H; simpl; rewrite ?H; auto.
Qed.

Lemma step_joined st ev : loop st = Joined -> loop (step st ev) = Joined.
Proof.
  intros Hloop. destruct ev; simpl; try exact Hloop.
  - rewrite Hloop. exact Hloop.
  - rewrite Hloop. exact Hloop.
Qed.

(** The first step of the thread after the flag is set ends the unit it
    was in (or enters the loop); the second observes the flag. *)
Lemma loop_step_stopping st :
  backend_thread_exit_ st = true ->
  loop (step st LoopStep) = AtSafePoint \/ loop (step st LoopStep) = Exited \/
  loop (step st LoopStep) = Joined.
Proof.
  intros Hflag. simpl. destruct (loop st) eqn:Hl; simpl; rewrite ?Hl; auto.
  unfold safe_point. rewrite Hflag. simpl. auto.
Qed.

Lemma loop_step_observes_flag st :
  backend_thread_exit_ st = true ->
  loop st = AtSafePoint \/ loop st = Exited \/ loop st = Joined ->
  loop (step st LoopStep) = Exited \/ loop (step st LoopStep) = Joined.
Proof.
  intros Hflag [Hloop | [Hloop | Hloop]]; simpl; rewrite Hloop; simpl; auto.
  unfold safe_point. rewrite Hflag. simpl. auto.
Qed.

Lemma join_after_exit st :
  loop st = Exited \/ loop st = Joined -> loop (step st Join) = Joined.
Proof. intros [Hloop | Hloop]; simpl; rewrite Hloop; simpl; auto. Qed.

Lemma run_stopping_joins (e1 e2 e3 e4 : list Event) st :
  backend_thread_exit_ st = true ->
  loop (run (e1 ++ LoopStep :: e2 ++ LoopStep :: e3 ++ Join :: e4) st) = Joined.
Proof.
  intros Hflag.
  rewrite run_app, run_cons, run_app, run_cons, run_app, run_cons.
  apply (run_preserves (fun st' => loop st' = Joined) step_joined).
  apply join_after_exit.
  apply (run_preserves _ step_left_loop).
  set (st1 := run e1 st).
  assert (Hflag1 : backend_thread_exit_ st1 = true)
    by (apply (run_preserves _ step_keeps_exit_flag), Hflag).
  pose proof (run_preserves _ step_stopping_between_units e2
                (step st1 LoopStep)
                (conj (step_keeps_exit_flag _ _ Hflag1)
                      (loop_step_stopping _ Hflag1))) as [Hflag2 Hloop2].
  apply loop_step_observes_flag; assumption.
Qed.

(** C6: once [StopBackendThread] has set the exit flag, no execution call
    is started any more, whatever is scheduled afterwards: the log of
    execution calls stays the one at the time of the call and the units of
    later [Schedule] calls stay in their queues; and the join of the
    destructor completes as soon as the thread has taken its (at most two)
    remaining steps, after which the thread stays joined. *)
Theorem stop_backend_thread_then_join st :
  (forall after,
     executed (run after (step st StopBackendThread)) = executed st) /\
  (forall after i,
     pending i (run after (step st StopBackendThread))
     = pending i st ++ scheduled i after) /\
  (forall e1 e2 e3 e4,
     loop (run (e1 ++ LoopStep :: e2 ++ LoopStep :: e3 ++ Join :: e4)
             (step st StopBackendThread)) = Joined) /\
  (loop (destroy st) = Joined /\ phase (destroy st) = Destroyed /\
   executed (destroy st) = executed st).
Proof.
  assert (Hflag : backend_thread_exit_ (step st StopBackendThread) = true)
    by reflexivity.
  assert (Hjoin : forall e1 e2 e3 e4,
     loop (run (e1 ++ LoopStep :: e2 ++ LoopStep :: e3 ++ Join :: e4)
             (step st StopBackendThread)) = Joined)
    by (intros; apply run_stopping_joins, Hflag).
  split; [| split; [| split; [exact Hjoin |]]].
  - intros after. rewrite run_stopping_executed by exact Hflag. reflexivity.
  - intros after i.
    pose proof (run_fifo after (step st StopBackendThread) i) as Hfifo.
    rewrite run_stopping_executed in Hfifo by exact Hflag.
    apply app_inv_head in Hfifo. exact Hfifo.
  - assert (Hd : loop (destroy st) = Joined) by exact (Hjoin [] [] [] []).
    split; [exact Hd | split].
    + unfold phase. rewrite Hd. reflexivity.
    + unfold destroy. rewrite run_cons.
      rewrite run_stopping_executed by exact Hflag. reflexivity.
Qed.

End WithRequests.

End BackendThreadSpec.

(** ** A thread shared by two instances *)

Module BackendThreadExamples.

Import BackendThread.

(** Instance 7 is handed the units [r1], [r2; r3] and [r4] while instance
    8, which shares the thread, is handed [r9]; the backend sees the units
    of 7 in call order, then the cursor moves on to instance 8. *)
Example two_instances_one_thread :
  executed
    (run [AddModelInstance 7; AddModelInstance 8; Schedule 7 [1%nat];
          LoopStep; LoopStep; Schedule 7 [2; 3]%nat; Schedule 8 [9%nat];
          LoopStep; Schedule 7 [4%nat]; LoopStep; LoopStep; LoopStep;
          LoopStep; LoopStep; LoopStep; LoopStep; LoopStep] created)
  = [(7, [1]); (7, [2; 3]); (7, [4]); (8, [9])]%nat.
Proof. vm_compute. reflexivity. Qed.

(** A unit scheduled after [StopBackendThread] is never executed, and the
    destructor's join completes. *)
Example stop_then_schedule :
  let st :=
    run [AddModelInstance 7; LoopStep; Schedule 7 [1%nat]; LoopStep;
         StopBackendThread; Schedule 7 [2%nat]; LoopStep; LoopStep;
         LoopStep; Join; LoopStep] created in
  executed st = [(7, [1])]%nat /\ pending 7 st = [[2]]%nat /\
  loop st = Joined.
Proof. vm_compute. repeat split. Qed.

End BackendThreadExamples.

(** ** SetInstances: all or nothing *)

Module InstanceSetSpec.

Import InstanceSet.

Section WithCollaborators.

Context {ModelInstanceGroup : Type}.
Variable Equivalent : ModelInstanceGroup -> ModelInstanceGroup -> bool.
Variable CreateInstance : Candidate ModelInstanceGroup -> Status.status.
Variable CreateBackendThread : Candidate ModelInstanceGroup -> Status.status.
Variable InitAndWarmUpModelInstance : Candidate ModelInstanceGroup -> Status.status.

Local Abbreviation add_instance :=
  (InstanceSet.add_instance Equivalent CreateInstance CreateBackendThread
     InitAndWarmUpModelInstance).
Local Abbreviation add_instances :=
  (InstanceSet.add_instances Equivalent CreateInstance CreateBackendThread
     InitAndWarmUpModelInstance).
Local Abbreviation SetInstances :=
  (InstanceSet.SetInstances Equivalent CreateInstance CreateBackendThread
     InitAndWarmUpModelInstance).
Local Abbreviation fails :=
  (InstanceSet.fails CreateInstance InitAndWarmUpModelInstance).

Implicit Types c : Candidate ModelInstanceGroup.
Implicit Types cands pre post : list (Candidate ModelInstanceGroup).
Implicit Types b : Built ModelInstanceGroup.

(** A status returned by one of the three collaborators for [c]. *)
Local Abbreviation originates_at c st :=
  (CreateInstance c = st \/ CreateBackendThread c = st \/
   InitAndWarmUpModelInstance c = st).

Ltac case_status :=
  match goal with
  | |- context [match ?st with Status.Success => _ | Status.Failure _ _ => _ end] =>
      destruct st eqn:?
  end.

(** *** One candidate *)

Lemma add_instance_failure c b code msg b' :
  add_instance c b = (Status.Failure code msg, b') ->
  originates_at c (Status.Failure code msg).
Proof.
  unfold InstanceSet.add_instance.
  case_status; [| intros [= <- <- _]; auto].
  destruct (cand_passive c); [intros [=] |].
  destruct (if cand_shareable c then _ else _).
  - case_status; intros [= ]; subst; auto.
  - case_status; [| intros [= <- <- _]; auto].
    case_status; intros [= ]; subst; auto.
Qed.

Lemma add_instance_fails c b :
  fails c -> Status.IsOk (fst (add_instance c b)) = false.
Proof.
  unfold InstanceSet.fails, InstanceSet.add_instance.
  intros [Hcreate | [Hactive Hinit]].
  - destruct (CreateInstance c); [discriminate Hcreate | reflexivity].
  - destruct (CreateInstance c); [| reflexivity].
    rewrite Hactive.
    destruct (if cand_shareable c then _ else _).
    + destruct (InitAndWarmUpModelInstance c);
        [discriminate Hinit | reflexivity].
    + destruct (CreateBackendThread c); [| reflexivity].
      destruct (InitAndWarmUpModelInstance c);
        [discriminate Hinit | reflexivity].
Qed.

(** *** The loop over the candidates *)

(** A failure of the loop is the failure of one candidate, reached after
    all candidates before it succeeded. *)
Lemma add_instances_failure cands b code msg b' :
  add_instances cands b = (Status.Failure code msg, b') ->
  exists pre c post b0,
    cands = pre ++ c :: post /\
    add_instances pre b = (Status.Success, b0) /\
    add_instance c b0 = (Status.Failure code msg, b').
Proof.
  revert b. induction cands as [| c rest IH]; intros b; simpl.
  - intros [=].
  - destruct (add_instance c b) as [[| code1 msg1] b1] eqn:Hadd.
    + intros Hrest.
      destruct (IH _ Hrest) as (pre & c' & post & b0 & -> & Hpre & Hc').
      exists (c :: pre), c', post, b0. repeat split; [| exact Hc'].
      simpl. rewrite Hadd. exact Hpre.
    + intros [= <- <- <-].
      exists [], c, rest, b. repeat split. exact Hadd.
Qed.

Lemma add_instances_fails cands b :
  (exists c, c ∈ cands /\ fails c) ->
  Status.IsOk (fst (add_instances cands b)) = false.
Proof.
  intros (c & Hin & Hfails). revert b.
  induction cands as [| c0 rest IH]; intros b.
  - apply elem_of_nil in Hin. destruct Hin.
  - simpl. apply elem_of_cons in Hin as [<- | Hin].
    + pose proof (add_instance_fails c b Hfails) as Hc.
      destruct (add_instance c b) as [[| code msg] b1];
        [discriminate Hc | reflexivity].
    + destruct (add_instance c0 b) as [[| code msg] b1];
        [apply IH, Hin | reflexivity].
Qed.

(** *** Tear-down *)

Lemma running_threads_TearDown b : running_threads (TearDown b) = [].
Proof.
  unfold running_threads, TearDown; simpl.
  induction (threads b) as [| th ths IH]; [reflexivity |].
  rewrite fmap_cons, filter_cons_False; [exact IH |].
  simpl. discriminate.
Qed.

Lemma threads_TearDown_stopped b :
  Forall (fun th => thread_running th = false) (threads (TearDown b)).
Proof.
  unfold TearDown; simpl. apply Forall_fmap, Forall_true.
  intros th. reflexivity.
Qed.

(** C4: when the construction or the initialization of some instance
    fails, [SetInstances] returns a failure status, and it is the
    originating one: the status a collaborator returned for the first
    candidate that did not succeed, all candidates before it having
    succeeded.  Nothing of the partial set is left running: no instance
    remains, and every thread created earlier in the call is still there
    but stopped and joined. *)
Theorem SetInstances_aborts_and_tears_down cands :
  (exists c, c ∈ cands /\ fails c) ->
  exists pre c post b0 b1 code msg,
    cands = pre ++ c :: post /\
    add_instances pre empty = (Status.Success, b0) /\
    add_instance c b0 = (Status.Failure code msg, b1) /\
    originates_at c (Status.Failure code msg) /\
    fst (SetInstances cands) = Status.Failure code msg /\
    instances (snd (SetInstances cands)) = [] /\
    running_threads (snd (SetInstances cands)) = [] /\
    threads (snd (SetInstances cands)) = StopAndJoin <$> threads b1.
Proof.
  intros Hfails.
  pose proof (add_instances_fails cands empty Hfails) as Hko.
  unfold InstanceSet.SetInstances.
  destruct (add_instances cands empty) as [[| code msg] b1] eqn:Hrun;
    [discriminate Hko |].
  destruct (add_instances_failure _ _ _ _ _ Hrun)
    as (pre & c & post & b0 & Hsplit & Hpre & Hc).
  exists pre, c, post, b0, b1, code, msg.
  split; [exact Hsplit |]. split; [exact Hpre |]. split; [exact Hc |].
  split; [exact (add_instance_failure _ _ _ _ _ Hc) |].
  simpl. split; [reflexivity |]. split; [reflexivity |].
  split; [apply (running_threads_TearDown b1) | reflexivity].
Qed.

End WithCollaborators.

Import ModelConfig Scenario.

Lemma SetInstances_aborts_and_tears_down_witness :
  exists pre c post b0 b1 code msg,
    three_replicas = pre ++ c :: post /\
    add_instances EquivalentInInstanceConfig always_ok always_ok
      (warmup_fails_for "m_0_2") pre empty = (Status.Success, b0) /\
    add_instance EquivalentInInstanceConfig always_ok always_ok
      (warmup_fails_for "m_0_2") c b0 = (Status.Failure code msg, b1) /\
    (always_ok c = Status.Failure code msg \/
     always_ok c = Status.Failure code msg \/
     warmup_fails_for "m_0_2" c = Status.Failure code msg) /\
    fst (SetInstances EquivalentInInstanceConfig always_ok always_ok
           (warmup_fails_for "m_0_2") three_replicas)
      = Status.Failure code msg /\
    instances (snd (SetInstances EquivalentInInstanceConfig always_ok
                      always_ok (warmup_fails_for "m_0_2") three_replicas))
      = [] /\
    running_threads (snd (SetInstances EquivalentInInstanceConfig always_ok
                            always_ok (warmup_fails_for "m_0_2")
                            three_replicas))
      = [] /\
    threads (snd (SetInstances EquivalentInInstanceConfig always_ok
                    always_ok (warmup_fails_for "m_0_2") three_replicas))
      = StopAndJoin <$> threads b1.
Proof.
  apply (SetInstances_aborts_and_tears_down EquivalentInInstanceConfig
           always_ok always_ok (warmup_fails_for "m_0_2") three_replicas).
  exists (replica "m_0_2" 2). split.
  - do 2 apply list_elem_of_further. apply list_elem_of_here.
  - right. split; vm_compute; reflexivity.
Defined.

(** The two replicas on device 0 share one thread, and the second
    signature is consumed by the match. *)
Example two_replicas_share_a_thread :
  SetInstances EquivalentInInstanceConfig always_ok always_ok always_ok
    two_replicas
  = (Status.Success,
     {| instances :=
          [MkInstance "m_0_0" (Signature.Signature (gpu_group 2) 0)
             false (Some 0%nat);
           MkInstance "m_0_1"
             (Signature.DisableMatching (Signature.Signature (gpu_group 2) 0))
             false (Some 0%nat)];
        threads := [MkThread 0 ["m_0_0"; "m_0_1"] true] |}).
Proof. vm_compute. reflexivity. Qed.

(** The warm-up of the third replica fails: the status comes back as it
    is, no instance is left, and the shared thread is stopped. *)
Example third_replica_fails :
  SetInstances EquivalentInInstanceConfig always_ok always_ok
    (warmup_fails_for "m_0_2") three_replicas
  = (Status.Failure Status.LifecycleError "warm-up failed",
     {| instances := [];
        threads := [MkThread 0 ["m_0_0"; "m_0_1"; "m_0_2"] false] |}).
Proof. vm_compute. reflexivity. Qed.

End InstanceSetSpec.

(** ** Signature: [operator==] as a relation, and sequences of toggles *)

Module SignatureLaws.

Import Signature SignatureCalls.

Section WithConfig.

Context {ModelInstanceGroup : Type}.
Variable Equivalent : ModelInstanceGroup -> ModelInstanceGroup -> bool.

Implicit Types s t u : Signature.t ModelInstanceGroup.
Implicit Types cs : list Call.

Local Notation "s == t" := (operator_eq Equivalent s t)
  (at level 70, no associativity).
Local Notation "s != t" := (operator_ne Equivalent s t)
  (at level 70, no associativity).

Lemma operator_eq_true s t :
  (s == t) = true ->
  can_match_ s = true /\ can_match_ t = true /\
  device_id_ s = device_id_ t /\
  Equivalent (group_config_ s) (group_config_ t) = true.
Proof.
  unfold operator_eq. rewrite !andb_true_iff, Z.eqb_eq. tauto.
Qed.

(** X1: [operator==] and [operator!=] give the same answer in both
    argument orders whenever the configuration test does so on the two
    configurations: the flags and the device ids are compared
    symmetrically. *)
Theorem operator_eq_symmetric s t :
  Equivalent (group_config_ s) (group_config_ t)
  = Equivalent (group_config_ t) (group_config_ s) ->
  (s == t) = (t == s) /\ (s != t) = (t != s).
Proof.
  intros Hsym.
  assert (Heq : (s == t) = (t == s)).
  { unfold operator_eq. rewrite Hsym, (Z.eqb_sym (device_id_ s)).
    destruct (can_match_ s), (can_match_ t); reflexivity. }
  unfold operator_ne. rewrite Heq. auto.
Qed.

(** X2: [operator==] is transitive along a chain of three signatures
    whenever the configuration test is transitive on their
    configurations. *)
Theorem operator_eq_transitive s t u :
  (Equivalent (group_config_ s) (group_config_ t) = true ->
   Equivalent (group_config_ t) (group_config_ u) = true ->
   Equivalent (group_config_ s) (group_config_ u) = true) ->
  (s == t) = true -> (t == u) = true -> (s == u) = true.
Proof.
  intros Htrans Hst Htu.
  apply operator_eq_true in Hst as (Hs & _ & Hd1 & He1).
  apply operator_eq_true in Htu as (_ & Hu & Hd2 & He2).
  unfold operator_eq.
  rewrite Hs, Hu, Hd1, Hd2, Z.eqb_refl, (Htrans He1 He2). reflexivity.
Qed.

(** X3: a signature equals itself exactly when it is matchable, provided
    its configuration is equivalent to itself; so [operator==] is reflexive
    on matchable signatures only. *)
Theorem operator_eq_reflexive_iff_matchable s :
  Equivalent (group_config_ s) (group_config_ s) = true ->
  (operator_eq Equivalent s s = true <-> can_match_ s = true) /\
  operator_eq Equivalent s s = can_match_ s.
Proof.
  intros Hrefl.
  assert (Heq : (s == s) = can_match_ s).
  { unfold operator_eq. rewrite Z.eqb_refl, Hrefl.
    destruct (can_match_ s); reflexivity. }
  rewrite Heq. split; [tauto | reflexivity].
Qed.

(** *** Sequences of toggles *)

Lemma calls_snoc cs c s : calls (cs ++ [c]) s = call c (calls cs s).
Proof. unfold calls. rewrite foldl_app. reflexivity. Qed.

Lemma call_frame c s :
  group_config_ (call c s) = group_config_ s /\
  device_id_ (call c s) = device_id_ s.
Proof. destruct c; split; reflexivity. Qed.

Lemma calls_frame cs s :
  group_config_ (calls cs s) = group_config_ s /\
  device_id_ (calls cs s) = device_id_ s.
Proof.
  induction cs as [| c cs IH] using rev_ind; [split; reflexivity |].
  rewrite calls_snoc. destruct (call_frame c (calls cs s)) as [-> ->].
  exact IH.
Qed.

Lemma call_determined c s s' :
  group_config_ s = group_config_ s' -> device_id_ s = device_id_ s' ->
  call c s = call c s'.
Proof.
  intros Hg Hd.
  destruct c; unfold call, EnableMatching, DisableMatching;
    rewrite Hg, Hd; reflexivity.
Qed.

(** X4: after any sequence of [EnableMatching] and [DisableMatching]
    calls on a signature, only the last call matters: the signature is the
    one that call alone would have produced, with the configuration and
    the device id it always had. *)
Theorem last_toggle_wins cs c s :
  calls (cs ++ [c]) s = call c s /\
  group_config_ (calls (cs ++ [c]) s) = group_config_ s /\
  device_id_ (calls (cs ++ [c]) s) = device_id_ s.
Proof.
  destruct (calls_frame cs s) as [Hg Hd].
  split; [| apply calls_frame].
  rewrite calls_snoc. apply call_determined; assumption.
Qed.

(** X5: [EnableMatching] puts a signature back into the state its
    constructor gives it, so between two signatures that have both been
    re-enabled [operator==] is decided by the device ids and the
    configuration test alone; and in general the flags enter the result
    only as a guard in front of that test. *)
Theorem EnableMatching_is_fresh s t :
  EnableMatching s = Signature (group_config_ s) (device_id_ s) /\
  (EnableMatching s == EnableMatching t)
  = (device_id_ s =? device_id_ t) &&
    Equivalent (group_config_ s) (group_config_ t) /\
  (s == t)
  = can_match_ s && can_match_ t && (EnableMatching s == EnableMatching t).
Proof.
  repeat split.
  unfold operator_eq; simpl.
  destruct (can_match_ s), (can_match_ t); reflexivity.
Qed.

End WithConfig.

Import ModelConfig.

Lemma operator_eq_symmetric_witness :
  operator_eq EquivalentInInstanceConfig
    (Signature (gpu_group 1) 0) (DisableMatching (Signature cpu_group 0))
  = operator_eq EquivalentInInstanceConfig
      (DisableMatching (Signature cpu_group 0)) (Signature (gpu_group 1) 0) /\
  operator_ne EquivalentInInstanceConfig
    (Signature (gpu_group 1) 0) (DisableMatching (Signature cpu_group 0))
  = operator_ne EquivalentInInstanceConfig
      (DisableMatching (Signature cpu_group 0)) (Signature (gpu_group 1) 0).
Proof.
  apply (operator_eq_symmetric EquivalentInInstanceConfig
           (Signature (gpu_group 1) 0)
           (DisableMatching (Signature cpu_group 0))).
  vm_compute. reflexivity.
Defined.

Lemma operator_eq_transitive_witness :
  operator_eq EquivalentInInstanceConfig
    (Signature (gpu_group 1) 0) (Signature (gpu_group 3) 0) = true.
Proof.
  apply (operator_eq_transitive EquivalentInInstanceConfig
           (Signature (gpu_group 1) 0) (Signature (gpu_group 2) 0)
           (Signature (gpu_group 3) 0)).
  - intros _ _. vm_compute. reflexivity.
  - vm_compute. reflexivity.
  - vm_compute. reflexivity.
Defined.

Lemma operator_eq_reflexive_iff_matchable_witness :
  (operator_eq EquivalentInInstanceConfig
     (DisableMatching (Signature cpu_group 0))
     (DisableMatching (Signature cpu_group 0)) = true <->
   can_match_ (DisableMatching (Signature cpu_group 0)) = true) /\
  operator_eq EquivalentInInstanceConfig
    (DisableMatching (Signature cpu_group 0))
    (DisableMatching (Signature cpu_group 0))
  = can_match_ (DisableMatching (Signature cpu_group 0)).
Proof.
  apply (operator_eq_reflexive_iff_matchable EquivalentInInstanceConfig
           (DisableMatching (Signature cpu_group 0))).
  vm_compute. reflexivity.
Defined.

End SignatureLaws.

(** ** WarmupData: the range of the repeat count *)

Module WarmupDataLaws.

Import WarmupData.

Section WithPayload.

Context {InferenceRequest AllocatedMemory : Type}.

Local Abbreviation WarmupData :=
  (@WarmupData.WarmupData InferenceRequest AllocatedMemory).

(** X6: for a requested count that is a [size_t] value, the stored repeat
    count is a [size_t] value too and never 0; it is the requested count
    exactly when that count is at least 1; and building a sample again
    from the stored count changes nothing. *)
Theorem count_range name c :
  (c <= SIZE_MAX)%N ->
  (1 <= count_ (WarmupData name c) <= SIZE_MAX)%N /\
  (count_ (WarmupData name c) = c <-> (1 <= c)%N) /\
  WarmupData name (count_ (WarmupData name c)) = WarmupData name c.
Proof.
  unfold SIZE_MAX. intros Hc. simpl. split; [lia | split; [lia |]].
  unfold WarmupData.WarmupData. f_equal. lia.
Qed.

End WithPayload.

Lemma count_range_witness :
  (1 <= count_ (@WarmupData.WarmupData unit unit "zero_sample" 0)
     <= SIZE_MAX)%N /\
  (count_ (@WarmupData.WarmupData unit unit "zero_sample" 0) = 0%N
   <-> (1 <= 0)%N) /\
  @WarmupData.WarmupData unit unit "zero_sample"
    (count_ (@WarmupData.WarmupData unit unit "zero_sample" 0))
  = @WarmupData.WarmupData unit unit "zero_sample" 0.
Proof.
  apply (@count_range unit unit "zero_sample" 0%N).
  vm_compute. discriminate.
Defined.

End WarmupDataLaws.

(** ** TritonModelInstance: the opaque state and the signature reference *)

Module TritonModelInstanceSpec.

Import TritonModelInstance.

Section WithCollaborators.

Context {ModelInstanceGroup TritonBackendThread InferenceRequest
         AllocatedMemory Pointer TRITONSERVER_InstanceGroupKind
         HostPolicyCmdlineConfig TritonServerMessage
         MetricModelReporter : Type}.
Variable Equivalent : ModelInstanceGroup -> ModelInstanceGroup -> bool.

Local Abbreviation instance :=
  (TritonModelInstance.instance ModelInstanceGroup TritonBackendThread
     InferenceRequest AllocatedMemory Pointer TRITONSERVER_InstanceGroupKind
     HostPolicyCmdlineConfig TritonServerMessage MetricModelReporter).

Implicit Types i : instance.
Implicit Types p q : Pointer.
Implicit Types x : Signature.t ModelInstanceGroup.

(** X7: [State] returns what the last [SetState] stored; an earlier
    [SetState] is overwritten; storing the value [State] returns changes
    nothing; and [SetState] leaves the signature and everything the other
    accessors return as they were. *)
Theorem SetState_State_laws p q i :
  State (SetState p i) = p /\
  SetState q (SetState p i) = SetState q i /\
  SetState (State i) i = i /\
  GetSignature (SetState p i) = GetSignature i /\
  unrelated_to_state_and_signature i (SetState p i).
Proof.
  split; [reflexivity |]. split; [reflexivity |].
  split; [destruct i; reflexivity |].
  split; [reflexivity | repeat split].
Qed.

(** X8: disabling matching through the reference [GetSignature] returns
    makes the instance's signature unequal to every signature, on either
    side, and touches nothing else: the opaque state, the instance's own
    device id and everything the other accessors return stay as they
    were, the signature keeps its device id and configuration, and the
    order of this call and a [SetState] does not matter. *)
Theorem DisableMatching_through_GetSignature p i x :
  Signature.operator_eq Equivalent
    (GetSignature (on_signature Signature.DisableMatching i)) x = false /\
  Signature.operator_eq Equivalent
    x (GetSignature (on_signature Signature.DisableMatching i)) = false /\
  Signature.device_id_
    (GetSignature (on_signature Signature.DisableMatching i))
  = Signature.device_id_ (GetSignature i) /\
  Signature.group_config_
    (GetSignature (on_signature Signature.DisableMatching i))
  = Signature.group_config_ (GetSignature i) /\
  State (on_signature Signature.DisableMatching i) = State i /\
  unrelated_to_state_and_signature i
    (on_signature Signature.DisableMatching i) /\
  SetState p (on_signature Signature.DisableMatching i)
  = on_signature Signature.DisableMatching (SetState p i).
Proof.
  split; [apply SignatureSpec.operator_eq_disabled_l; reflexivity |].
  split; [apply SignatureSpec.operator_eq_disabled_r; reflexivity |].
  repeat split.
Qed.

End WithCollaborators.

End TritonModelInstanceSpec.
